(** * homebridge-sternet-smart-lan: the CCT downlighter accessory

  A shallow embedding of [CCTDownlighterAccessory.ts] (the iteration with
  state caching, [restoreState] and the connection timeout) and of
  [platform.ts], with the properties of the specification proved or
  refuted against it.

  - [JS]: the ECMAScript built-ins the accessory calls.  A JavaScript
    [number] is an IEEE 754 binary64 value, which is what Rocq's
    primitive [float] is, so arithmetic is the kernel's own.
  - [ColorModel]: [lerp], [clamp], [invlerp], [interpolate] and
    [calculateHexValue].
  - [Accessory]: the fields of [CCTDownlighter], the WebSocket objects
    and Node timers it owns, and every handler as a state transformer.
  - [Platform]: [validateConfig] and [discoverDevices]. *)

From Stdlib Require Import ZArith List String Ascii Bool Lia Arith.
From Stdlib Require Import Floats Uint63 DecimalString.
Import ListNotations.

#[local] Set Warnings "-register-all".

(* ================================================================= *)
(** ** ECMAScript built-ins *)

Module JS.

Open Scope Z_scope.

(** [number]: binary64. *)
Definition number := float.

(** An integer literal, or an integer held in a [number]; exact below 2^53. *)
Definition of_int (n : Z) : number :=
  if n <? 0 then (- of_uint63 (Uint63.of_Z (- n)))%float
  else of_uint63 (Uint63.of_Z n).

Definition is_neg_zero (x : number) : bool :=
  match classify x with NZero => true | _ => false end.

(** [Math.max(x, y)]: NaN if either is NaN, and [+0] is larger than [-0]. *)
Definition Math_max (x y : number) : number :=
  match (x ?= y)%float with
  | FNotComparable => nan
  | FLt => y
  | FGt => x
  | FEq => if is_neg_zero x then y else x
  end.

(** [Math.min(x, y)]: NaN if either is NaN, and [-0] is smaller than [+0]. *)
Definition Math_min (x y : number) : number :=
  match (x ?= y)%float with
  | FNotComparable => nan
  | FLt => x
  | FGt => y
  | FEq => if is_neg_zero y then y else x
  end.

(** The signed integer mantissa of a finite value [m * 2^e]. *)
Definition signed (s : bool) (m : positive) : Z := cond_Zopp s (Zpos m).

(** [Math.floor(x)]: the largest integer not above [x], computed exactly
    from mantissa and exponent; NaN, the infinities and the zeros are
    returned as they are, and so is a value with no fractional bits. *)
Definition Math_floor (x : number) : number :=
  match Prim2SF x with
  | S754_finite s m e =>
      if 0 <=? e then x
      else
        let n := Z.shiftr (signed s m) (- e) in
        if n =? 0 then 0%float else of_int n
  | _ => x
  end.

(** [Math.round(x)]: [floor(x + 1/2)] taken exactly (ties go up); a value
    in [-1/2, 0) gives [-0] and one in [0, 1/2) gives [+0]. *)
Definition Math_round (x : number) : number :=
  match Prim2SF x with
  | S754_finite s m e =>
      if 0 <=? e then x
      else
        let n := Z.shiftr (2 * signed s m + Z.shiftl 1 (- e)) (- e + 1) in
        if n =? 0 then (if s then (-0)%float else 0%float) else of_int n
  | _ => x
  end.

(** Digits of [Number.prototype.toString(16)]. *)
Definition hex_digit (d : Z) : ascii :=
  nth (Z.to_nat d)
      ["0"; "1"; "2"; "3"; "4"; "5"; "6"; "7"; "8"; "9";
       "a"; "b"; "c"; "d"; "e"; "f"]%char "0"%char.

Fixpoint hex_digits (fuel : nat) (n : Z) (acc : string) : string :=
  match fuel with
  | O => acc
  | S fuel' =>
      let acc' := String (hex_digit (n mod 16)) acc in
      if n / 16 =? 0 then acc' else hex_digits fuel' (n / 16) acc'
  end.

(** A non-negative integer in radix 16, no leading zeros ("0" for 0). *)
Definition hex_of_nonneg (n : Z) : string :=
  hex_digits (S (Z.to_nat (Z.log2 n))) n EmptyString.

(** The fractional hex digits of [frac / 2^k], to the last non-zero one. *)
Fixpoint hex_fraction (fuel : nat) (frac k : Z) : string :=
  match fuel with
  | O => EmptyString
  | S fuel' =>
      if frac =? 0 then EmptyString
      else String (hex_digit (Z.shiftr (16 * frac) k))
                  (hex_fraction fuel' (Z.land (16 * frac) (Z.ones k)) k)
  end.

(** [x.toString(16)].  An integral value prints as its hex digits with a
    leading "-" when negative, both zeros print as "0".  For a value with
    a fractional part ECMAScript leaves the number of digits to the
    implementation; the exact expansion is given here, and the accessory
    never reaches that case since it only prints [Math.floor] results. *)
Definition toString16 (x : number) : string :=
  match Prim2SF x with
  | S754_nan => "NaN"%string
  | S754_infinity false => "Infinity"%string
  | S754_infinity true => "-Infinity"%string
  | S754_zero _ => "0"%string
  | S754_finite s m e =>
      let sign := if s then "-"%string else EmptyString in
      if 0 <=? e then (sign ++ hex_of_nonneg (Z.shiftl (Zpos m) e))%string
      else
        let k := - e in
        let frac := Z.land (Zpos m) (Z.ones k) in
        let whole := hex_of_nonneg (Z.shiftr (Zpos m) k) in
        if frac =? 0 then (sign ++ whole)%string
        else (sign ++ whole ++ "." ++ hex_fraction (S (Z.to_nat k)) frac k)%string
  end.

(** [s.padStart(targetLength, padString)]. *)
Fixpoint cycle (n : nat) (pad cur : string) : string :=
  match n with
  | O => EmptyString
  | S n' =>
      match cur with
      | EmptyString =>
          match pad with
          | EmptyString => EmptyString
          | String c rest => String c (cycle n' pad rest)
          end
      | String c rest => String c (cycle n' pad rest)
      end
  end.

Definition padStart (targetLength : nat) (padString s : string) : string :=
  let len := String.length s in
  if (targetLength <=? len)%nat then s
  else (cycle (targetLength - len) padString padString ++ s)%string.

End JS.

(* ================================================================= *)
(** ** The colour model: [interpolate] and [calculateHexValue] *)

Module ColorModel.

Import JS.
Open Scope float_scope.

(** [interface AccessoryState]. *)
Record AccessoryState := mkState {
  On : bool;
  Brightness : number;
  ColorTemperature : number
}.

(** [const lerp = (min, max, n) => (1 - n) * min + n * max]. *)
Definition lerp (min max n : number) : number := (1 - n) * min + n * max.

(** [const clamp = (n, min = 0, max = 1) => Math.min(max, Math.max(min, n))]. *)
Definition clamp (n min max : number) : number := Math_min max (Math_max min n).

(** [const invlerp = (min, max, n) => clamp((n - min) / (max - min))]. *)
Definition invlerp (min max n : number) : number :=
  clamp ((n - min) / (max - min)) 0 1.

(** An out-of-range array index reads [undefined], which arithmetic
    turns into NaN. *)
Definition index (a : list number) (i : nat) : number := nth i a nan.

(** [const interpolate = (inputRange, outputRange, n) => lerp(...)]. *)
Definition interpolate (inputRange outputRange : list number) (n : number) : number :=
  lerp (index outputRange 0) (index outputRange 1)
       (invlerp (index inputRange 0) (index inputRange 1) n).

(** [temperatureInKelvin]. *)
Definition temperatureInKelvin (st : AccessoryState) : number :=
  Math_round (1000000 / ColorTemperature st).

(** [saturation_sct], as a function of the Kelvin value. *)
Definition saturation_sct (kelvin : number) : number :=
  interpolate [2200; 7000] [0; 100] kelvin.

(** [coolValue] and [warmValue] for a saturation and a brightness. *)
Definition coolValue (sat brightness : number) : number :=
  Math_floor (sat * (brightness / 100)).

Definition warmValue (sat brightness : number) : number :=
  Math_floor ((100 - sat) * (brightness / 100)).

(** The pair [(coolValue, warmValue)] that [calculateHexValue] computes
    when the light is on. *)
Definition channels (st : AccessoryState) : number * number :=
  let sat := saturation_sct (temperatureInKelvin st) in
  (coolValue sat (Brightness st), warmValue sat (Brightness st)).

(** [private calculateHexValue(): string]. *)
Definition calculateHexValue (st : AccessoryState) : string :=
  if negb (On st) then "#000000"%string
  else
    let '(cool, warm) := channels st in
    let coolHexValue := padStart 2 "0" (toString16 cool) in
    let warmHexValue := padStart 2 "0" (toString16 warm) in
    ("#" ++ coolHexValue ++ warmHexValue ++ "00")%string.

End ColorModel.

Module ColorModelExamples.
Import JS ColorModel.

Example hex_50_300 :
  calculateHexValue (mkState true 50 300) = "#0b2600"%string.
Proof. vm_compute. reflexivity. Qed.

Example hex_off : calculateHexValue (mkState false 50 300) = "#000000"%string.
Proof. reflexivity. Qed.

Example hex_full_cool : calculateHexValue (mkState true 100 140) = "#640000"%string.
Proof. vm_compute. reflexivity. Qed.

Example hex_full_warm : calculateHexValue (mkState true 100 455) = "#006400"%string.
Proof. vm_compute. reflexivity. Qed.

Example round_ties :
  (Math_round 2.5, Math_round (-0.5), Math_round (-1.5), Math_floor (-0.5))
  = (3, -0, -1, -1)%float.
Proof. vm_compute. reflexivity. Qed.

Example toString16_samples :
  (toString16 255, toString16 (-16), toString16 0.5, toString16 (0 / 0))
  = ("ff", "-10", "0.8", "NaN")%string.
Proof. vm_compute. reflexivity. Qed.
End ColorModelExamples.

(* ================================================================= *)
(** ** The accessory: [class CCTDownlighter] *)

Module Accessory.

Import JS ColorModel.
Open Scope string_scope.

(* --------------------------------------------------------------- *)
(** *** Inbound frames: JSON values as [JSON.parse] returns them *)

(** Numeric literals are the integers the device reports
    ([firmwareVersion], [RSSI], [Free_Heap]). *)
Inductive json :=
| JNull
| JBool (b : bool)
| JNum (n : Z)
| JStr (s : string)
| JArr (items : list json)
| JObj (fields : list (string * json)).

(** A frame either is not JSON text or is the text of a value. *)
Inductive Frame :=
| NotJson (text : string)
| Json (v : json).

(** [JSON.parse(data.toString())]; [None] is the [SyntaxError]. *)
Definition JSON_parse (data : Frame) : option json :=
  match data with
  | NotJson _ => None
  | Json v => Some v
  end.

Fixpoint lookup (key : string) (fields : list (string * json)) : option json :=
  match fields with
  | [] => None
  | (k, v) :: rest => if String.eqb k key then Some v else lookup key rest
  end.

Definition has_key (key : string) (fields : list (string * json)) : bool :=
  match lookup key fields with
  | Some _ => true
  | None => false
  end.

(** [key in v], for a key that neither [Object.prototype] nor
    [Array.prototype] defines; [None] is the [TypeError] that [in] throws
    on a primitive. *)
Definition js_in (key : string) (v : json) : option bool :=
  match v with
  | JObj fields => Some (has_key key fields)
  | JArr _ => Some false
  | _ => None
  end.

(** [v.key]; [None] is [undefined]. *)
Definition get (key : string) (v : json) : option json :=
  match v with
  | JObj fields => lookup key fields
  | _ => None
  end.

Definition decimal (n : Z) : string :=
  DecimalString.NilZero.string_of_int (Z.to_int n).

(** [v.toString()] on a parsed value; [None] is the [TypeError] thrown
    on [null], and on an object whose own [toString] entry shadows the
    inherited method with something that cannot be called. *)
Fixpoint js_toString (v : json) : option string :=
  match v with
  | JNull => None
  | JBool b => Some (if b then "true" else "false")
  | JNum n => Some (decimal n)
  | JStr s => Some s
  | JArr items =>
      (fix join (l : list json) : option string :=
         match l with
         | [] => Some EmptyString
         | x :: rest =>
             let head := match x with JNull => Some EmptyString | _ => js_toString x end in
             match rest with
             | [] => head
             | _ :: _ =>
                 match head, join rest with
                 | Some a, Some b => Some (a ++ "," ++ b)
                 | _, _ => None
                 end
             end
         end) items
  | JObj fields => if has_key "toString" fields then None else Some "[object Object]"
  end.

(** [x.toString()] where [x] may be [undefined]. *)
Definition toString_of (x : option json) : option string :=
  match x with
  | None => None
  | Some v => js_toString v
  end.

(** [a !== b] between a characteristic's value and a parsed value: by
    value on primitives, by reference on arrays and objects, and a
    freshly parsed one is never the object already stored. *)
Definition strict_neq (a b : option json) : bool :=
  match a, b with
  | None, None => false
  | Some JNull, Some JNull => false
  | Some (JBool x), Some (JBool y) => negb (Bool.eqb x y)
  | Some (JNum x), Some (JNum y) => negb (Z.eqb x y)
  | Some (JStr x), Some (JStr y) => negb (String.eqb x y)
  | _, _ => true
  end.

(* --------------------------------------------------------------- *)
(** *** What the hub holds *)

(** The On characteristic: a value, or the error status set by
    [updateCharacteristic(On, new Error(...))]. *)
Inductive OnValue :=
| OnIs (b : bool)
| OnError (message : string).

Record Hub := mkHub {
  Manufacturer : option json;
  Model : option json;
  SerialNumber : option json;
  FirmwareRevision : option json;
  Name : option json;
  char_On : OnValue;
  handlers : list (string * string * string);   (* characteristic, onSet/onGet, bound method *)
  ColorTemperature_props : option (Z * Z)       (* minValue, maxValue *)
}.

(** [accessory.context.device]. *)
Record DeviceContext := mkDevice {
  name : string;
  type : string;
  ip : string;
  restore_state : option bool
}.

(** [accessory.context.state]: undefined, an object of its own (the one
    read back from the cache), or the very object [this.states] refers to. *)
Inductive ContextState :=
| CtxUndefined
| CtxObject (o : AccessoryState)
| CtxThisStates.

(* --------------------------------------------------------------- *)
(** *** WebSocket objects and Node timers *)

Inductive ReadyState := CONNECTING | OPEN | CLOSING | CLOSED.

Definition ReadyState_eqb (a b : ReadyState) : bool :=
  match a, b with
  | CONNECTING, CONNECTING | OPEN, OPEN | CLOSING, CLOSING | CLOSED, CLOSED => true
  | _, _ => false
  end.

(** What a timer runs when it fires. *)
Inductive Callback :=
| ReconnectCb            (* () => this.connectWebSocket() *)
| StatusCheckCb          (* () => this.checkStatus() *)
| ConnectionTimeoutCb.   (* () => { this.ws?.terminate(); this.handleDisconnection() } *)

Definition Callback_eqb (a b : Callback) : bool :=
  match a, b with
  | ReconnectCb, ReconnectCb | StatusCheckCb, StatusCheckCb
  | ConnectionTimeoutCb, ConnectionTimeoutCb => true
  | _, _ => false
  end.

(** A pending timer: [every] is the period of a [setInterval]. *)
Record Timer := mkTimer {
  timer_id : nat;
  callback : Callback;
  due : Z;
  every : option Z
}.

Record Runtime := mkRuntime {
  sockets : list ReadyState;        (* every WebSocket created, by index *)
  timers : list Timer;              (* the pending timers *)
  next_timer : nat;
  now : Z;                          (* milliseconds *)
  sent : list (nat * string);       (* frames handed to [ws.send], oldest first *)
  url_accepted : bool               (* whether [new WebSocket(wsUrl)] returns *)
}.

(** The fields of [CCTDownlighter]. *)
Record Fields := mkFields {
  ws : option nat;
  reconnectInterval : option nat;
  connectionTimeout : option nat;
  statusCheckInterval : option nat;
  isOnline : bool;
  lastStatus : option json;
  restoreState : bool;
  states : AccessoryState
}.

Record World := mkWorld {
  this : Fields;
  device : DeviceContext;
  context_state : ContextState;
  hub : Hub;
  rt : Runtime
}.

Definition RECONNECT_INTERVAL : Z := 15000.
Definition STATUS_CHECK_INTERVAL : Z := 20000.
Definition CONNECTION_TIMEOUT : Z := 30000.

(** Field updates. *)
Definition with_this (f : Fields -> Fields) (w : World) : World :=
  mkWorld (f (this w)) (device w) (context_state w) (hub w) (rt w).
Definition with_hub (f : Hub -> Hub) (w : World) : World :=
  mkWorld (this w) (device w) (context_state w) (f (hub w)) (rt w).
Definition with_rt (f : Runtime -> Runtime) (w : World) : World :=
  mkWorld (this w) (device w) (context_state w) (hub w) (f (rt w)).
Definition set_context_state (c : ContextState) (w : World) : World :=
  mkWorld (this w) (device w) c (hub w) (rt w).

Definition set_ws (v : option nat) : World -> World :=
  with_this (fun t => mkFields v (reconnectInterval t) (connectionTimeout t)
    (statusCheckInterval t) (isOnline t) (lastStatus t) (restoreState t) (states t)).
Definition set_reconnectInterval (v : option nat) : World -> World :=
  with_this (fun t => mkFields (ws t) v (connectionTimeout t)
    (statusCheckInterval t) (isOnline t) (lastStatus t) (restoreState t) (states t)).
Definition set_connectionTimeout (v : option nat) : World -> World :=
  with_this (fun t => mkFields (ws t) (reconnectInterval t) v
    (statusCheckInterval t) (isOnline t) (lastStatus t) (restoreState t) (states t)).
Definition set_statusCheckInterval (v : option nat) : World -> World :=
  with_this (fun t => mkFields (ws t) (reconnectInterval t) (connectionTimeout t)
    v (isOnline t) (lastStatus t) (restoreState t) (states t)).
Definition set_isOnline (v : bool) : World -> World :=
  with_this (fun t => mkFields (ws t) (reconnectInterval t) (connectionTimeout t)
    (statusCheckInterval t) v (lastStatus t) (restoreState t) (states t)).
Definition set_lastStatus (v : option json) : World -> World :=
  with_this (fun t => mkFields (ws t) (reconnectInterval t) (connectionTimeout t)
    (statusCheckInterval t) (isOnline t) v (restoreState t) (states t)).
Definition set_states (v : AccessoryState) : World -> World :=
  with_this (fun t => mkFields (ws t) (reconnectInterval t) (connectionTimeout t)
    (statusCheckInterval t) (isOnline t) (lastStatus t) (restoreState t) v).

Definition set_sockets (v : list ReadyState) : World -> World :=
  with_rt (fun r => mkRuntime v (timers r) (next_timer r) (now r) (sent r) (url_accepted r)).
Definition set_timers (v : list Timer) : World -> World :=
  with_rt (fun r => mkRuntime (sockets r) v (next_timer r) (now r) (sent r) (url_accepted r)).
Definition set_next_timer (v : nat) : World -> World :=
  with_rt (fun r => mkRuntime (sockets r) (timers r) v (now r) (sent r) (url_accepted r)).
Definition set_now (v : Z) : World -> World :=
  with_rt (fun r => mkRuntime (sockets r) (timers r) (next_timer r) v (sent r) (url_accepted r)).
Definition set_sent (v : list (nat * string)) : World -> World :=
  with_rt (fun r => mkRuntime (sockets r) (timers r) (next_timer r) (now r) v (url_accepted r)).

Definition set_Manufacturer (v : option json) : World -> World :=
  with_hub (fun h => mkHub v (Model h) (SerialNumber h) (FirmwareRevision h) (Name h) (char_On h) (handlers h) (ColorTemperature_props h)).
Definition set_Model (v : option json) : World -> World :=
  with_hub (fun h => mkHub (Manufacturer h) v (SerialNumber h) (FirmwareRevision h) (Name h) (char_On h) (handlers h) (ColorTemperature_props h)).
Definition set_SerialNumber (v : option json) : World -> World :=
  with_hub (fun h => mkHub (Manufacturer h) (Model h) v (FirmwareRevision h) (Name h) (char_On h) (handlers h) (ColorTemperature_props h)).
Definition set_FirmwareRevision (v : option json) : World -> World :=
  with_hub (fun h => mkHub (Manufacturer h) (Model h) (SerialNumber h) v (Name h) (char_On h) (handlers h) (ColorTemperature_props h)).
Definition set_Name (v : option json) : World -> World :=
  with_hub (fun h => mkHub (Manufacturer h) (Model h) (SerialNumber h) (FirmwareRevision h) v (char_On h) (handlers h) (ColorTemperature_props h)).
Definition set_char_On (v : OnValue) : World -> World :=
  with_hub (fun h => mkHub (Manufacturer h) (Model h) (SerialNumber h) (FirmwareRevision h) (Name h) v (handlers h) (ColorTemperature_props h)).

Definition set_handlers (v : list (string * string * string)) : World -> World :=
  with_hub (fun h => mkHub (Manufacturer h) (Model h) (SerialNumber h) (FirmwareRevision h)
                           (Name h) (char_On h) v (ColorTemperature_props h)).
Definition set_ColorTemperature_props (v : option (Z * Z)) : World -> World :=
  with_hub (fun h => mkHub (Manufacturer h) (Model h) (SerialNumber h) (FirmwareRevision h)
                           (Name h) (char_On h) (handlers h) v).

(** [new WebSocket(wsUrl)], once the URL is accepted: a fresh object in
    state CONNECTING. *)
Definition new_WebSocket (w : World) : nat * World :=
  let i := List.length (sockets (rt w)) in
  (i, set_sockets (sockets (rt w) ++ [CONNECTING])%list w).

Definition readyState (i : nat) (w : World) : option ReadyState :=
  nth_error (sockets (rt w)) i.

Fixpoint update_nth {A} (i : nat) (x : A) (l : list A) : list A :=
  match l, i with
  | [], _ => []
  | _ :: rest, O => x :: rest
  | y :: rest, S j => y :: update_nth j x rest
  end.

Definition set_readyState (i : nat) (s : ReadyState) (w : World) : World :=
  set_sockets (update_nth i s (sockets (rt w))) w.

(** [socket.close()]: starts the closing handshake, or aborts the
    opening one; nothing to do on a closed socket. *)
Definition ws_close (i : nat) (w : World) : World :=
  match readyState i w with
  | Some CONNECTING | Some OPEN => set_readyState i CLOSING w
  | _ => w
  end.

(** [socket.terminate()]: destroys the connection. *)
Definition ws_terminate (i : nat) (w : World) : World :=
  match readyState i w with
  | Some CLOSED | None => w
  | Some _ => set_readyState i CLOSING w
  end.

(** [socket.send(message)] on an open socket. *)
Definition ws_send (i : nat) (message : string) (w : World) : World :=
  set_sent (sent (rt w) ++ [(i, message)])%list w.

(** [setTimeout] and [setInterval]: a fresh handle, pending from now on. *)
Definition arm (cb : Callback) (delay : Z) (period : option Z) (w : World) : nat * World :=
  let id := next_timer (rt w) in
  (id, set_next_timer (S id)
         (set_timers (timers (rt w) ++ [mkTimer id cb (now (rt w) + delay) period])%list w)).

Definition setTimeout (cb : Callback) (delay : Z) : World -> nat * World :=
  arm cb delay None.
Definition setInterval (cb : Callback) (delay : Z) : World -> nat * World :=
  arm cb delay (Some delay).

(** [clearTimeout] and [clearInterval] (Node treats them alike): the
    timer stops being pending; clearing a finished or cleared handle
    does nothing. *)
Definition clearTimer (id : nat) (w : World) : World :=
  set_timers (filter (fun t => negb (Nat.eqb (timer_id t) id)) (timers (rt w))) w.
Definition clearTimeout := clearTimer.
Definition clearInterval := clearTimer.

Definition pending (id : nat) (w : World) : option Timer :=
  find (fun t => Nat.eqb (timer_id t) id) (timers (rt w)).

(* --------------------------------------------------------------- *)
(** *** The methods of the class *)

(** [JSON.stringify({ cmd: 'STATUS' })]. *)
Definition quote : string := String "034"%char EmptyString.
Definition STATUS_QUERY : string :=
  "{" ++ quote ++ "cmd" ++ quote ++ ":" ++ quote ++ "STATUS" ++ quote ++ "}".

(** [private loadCachedState()]. *)
Definition loadCachedState (w : World) : World :=
  match context_state w with
  | CtxObject cachedState =>
      set_states (mkState (On cachedState) (Brightness cachedState)
                          (ColorTemperature cachedState)) w
  | CtxThisStates => w
  | CtxUndefined => set_context_state CtxThisStates w
  end.

(** [private saveState()]: [this.accessory.context.state = this.states]. *)
Definition saveState (w : World) : World := set_context_state CtxThisStates w.

(** What [accessory.context.state] reads as. *)
Definition persisted (w : World) : option AccessoryState :=
  match context_state w with
  | CtxUndefined => None
  | CtxObject o => Some o
  | CtxThisStates => Some (states (this w))
  end.

(** [private updateAccessoryInfo(status)]; [None] when
    [status.firmwareVersion.toString()] throws, which it does before any
    characteristic is touched. *)
Definition updateAccessoryInfo (status : json) (w : World) : option World :=
  match toString_of (get "firmwareVersion" status) with
  | None => None
  | Some firmwareString =>
      let w :=
        if strict_neq (Manufacturer (hub w)) (Some (JStr "Sternet Smart"))
        then set_Manufacturer (Some (JStr "Sternet Smart")) w else w in
      let w :=
        if strict_neq (Model (hub w)) (Some (JStr "CCT Downlighter"))
        then set_Model (Some (JStr "CCT Downlighter")) w else w in
      let w :=
        if strict_neq (SerialNumber (hub w)) (get "mac" status)
        then set_SerialNumber (get "mac" status) w else w in
      let w :=
        if strict_neq (FirmwareRevision (hub w)) (Some (JStr firmwareString))
        then set_FirmwareRevision (Some (JStr firmwareString)) w else w in
      let w :=
        if strict_neq (Name (hub w)) (get "hostname" status)
        then set_Name (get "hostname" status) w else w in
      Some (set_lastStatus (Some status) w)
  end.

(** [private updateNotResponding()]. *)
Definition updateNotResponding (w : World) : World :=
  set_char_On (OnError "Device not responding") w.

(** [private sendMessage(message)]. *)
Definition sendMessage (message : string) (w : World) : World :=
  match ws (this w) with
  | Some i =>
      match readyState i w with
      | Some OPEN => ws_send i message w
      | _ => w
      end
  | None => w
  end.

(** [private checkStatus()]. *)
Definition checkStatus (w : World) : World := sendMessage STATUS_QUERY w.

(** [private sendState()]. *)
Definition sendState (w : World) : World :=
  if negb (isOnline (this w)) then w
  else sendMessage (calculateHexValue (states (this w))) w.

(** [private scheduleReconnect()]. *)
Definition scheduleReconnect (w : World) : World :=
  match reconnectInterval (this w) with
  | None =>
      let '(id, w) := setInterval ReconnectCb RECONNECT_INTERVAL w in
      set_reconnectInterval (Some id) w
  | Some _ => w
  end.

(** [private scheduleConnectionTimeout()]. *)
Definition scheduleConnectionTimeout (w : World) : World :=
  let w :=
    match connectionTimeout (this w) with
    | Some id => set_connectionTimeout None (clearTimeout id w)
    | None => w
    end in
  let '(id, w) := setTimeout ConnectionTimeoutCb CONNECTION_TIMEOUT w in
  set_connectionTimeout (Some id) w.

(** [private handleDisconnection()]. *)
Definition handleDisconnection (w : World) : World :=
  let w := set_isOnline false w in
  let w :=
    match statusCheckInterval (this w) with
    | Some id => set_statusCheckInterval None (clearInterval id w)
    | None => w
    end in
  let w := updateNotResponding w in
  scheduleReconnect w.

(** [private connectWebSocket()], up to the registration of the four
    listeners, which [step] below dispatches to. *)
Definition connectWebSocket (w : World) : World :=
  let w :=
    match ws (this w) with
    | Some i => ws_close i w
    | None => w
    end in
  if url_accepted (rt w) then
    let '(i, w) := new_WebSocket w in
    set_ws (Some i) w
  else handleDisconnection w.

(** [this.ws.on('open', ...)]. *)
Definition on_open (w : World) : World :=
  let w :=
    match reconnectInterval (this w) with
    | Some id => set_reconnectInterval None (clearInterval id w)
    | None => w
    end in
  let w :=
    match statusCheckInterval (this w) with
    | Some id => clearInterval id w
    | None => w
    end in
  let '(id, w) := setInterval StatusCheckCb STATUS_CHECK_INTERVAL w in
  let w := set_statusCheckInterval (Some id) w in
  let w := set_isOnline true w in
  let w := if restoreState (this w) then sendState w else w in
  let w := set_char_On (OnIs (On (states (this w)))) w in
  scheduleConnectionTimeout w.

(** The test of the message listener,
    ['hostname' in r && 'mac' in r && 'firmwareVersion' in r]. *)
Definition is_status_response (response : json) : option bool :=
  match js_in "hostname" response with
  | Some true =>
      match js_in "mac" response with
      | Some true => js_in "firmwareVersion" response
      | other => other
      end
  | other => other
  end.

(** [this.ws.on('message', ...)]: whatever is thrown inside the [try]
    lands in the empty [catch]. *)
Definition on_message (data : Frame) (w : World) : World :=
  match JSON_parse data with
  | None => w
  | Some response =>
      match is_status_response response with
      | None => w
      | Some true =>
          match updateAccessoryInfo response w with
          | None => w
          | Some w =>
              let w :=
                if negb (isOnline (this w))
                then set_char_On (OnIs (On (states (this w)))) (set_isOnline true w)
                else w in
              scheduleConnectionTimeout w
          end
      | Some false => scheduleConnectionTimeout w
      end
  end.

(** [this.ws.on('close', ...)] and [this.ws.on('error', ...)]. *)
Definition on_close (w : World) : World := handleDisconnection w.
Definition on_error (w : World) : World := handleDisconnection w.

(** The callback of [scheduleConnectionTimeout]. *)
Definition on_connection_timeout (w : World) : World :=
  let w :=
    match ws (this w) with
    | Some i => ws_terminate i w
    | None => w
    end in
  handleDisconnection w.

(** [async setOn(value)]. *)
Definition setOn (value : bool) (w : World) : World :=
  let s := states (this w) in
  let w := set_states (mkState value (Brightness s) (ColorTemperature s)) w in
  let w := saveState w in
  if isOnline (this w) then
    let w := sendState w in
    set_char_On (OnIs (On (states (this w)))) w
  else w.

(** [async setBrightness(value)]. *)
Definition setBrightness (value : number) (w : World) : World :=
  let s := states (this w) in
  let w := set_states (mkState (On s) value (ColorTemperature s)) w in
  let w := saveState w in
  if isOnline (this w) then sendState w else w.

(** [async getBrightness()]. *)
Definition getBrightness (w : World) : number := Brightness (states (this w)).

(** [async setColorTemperature(value)]. *)
Definition setColorTemperature (value : number) (w : World) : World :=
  let s := states (this w) in
  let w := set_states (mkState (On s) (Brightness s) value) w in
  let w := saveState w in
  if isOnline (this w) then sendState w else w.

(** [async getColorTemperature()]. *)
Definition getColorTemperature (w : World) : number :=
  ColorTemperature (states (this w)).

(** [destroy()]. *)
Definition destroy (w : World) : World :=
  let w :=
    match ws (this w) with
    | Some i => ws_close i w
    | None => w
    end in
  let w :=
    match reconnectInterval (this w) with
    | Some id => clearTimeout id w
    | None => w
    end in
  match statusCheckInterval (this w) with
  | Some id => clearInterval id w
  | None => w
  end.

(* --------------------------------------------------------------- *)
(** *** The constructor *)

(** The methods the class body declares.  [getOn] is not among them:
    its three lines are inside a comment. *)
Definition methods : list string :=
  [ "loadCachedState"; "saveState"; "updateAccessoryInfo"; "updateNotResponding";
    "calculateHexValue"; "sendMessage"; "checkStatus"; "sendState";
    "connectWebSocket"; "handleDisconnection"; "scheduleReconnect";
    "scheduleConnectionTimeout"; "setOn"; "setBrightness"; "getBrightness";
    "setColorTemperature"; "getColorTemperature"; "destroy" ].

(** [this.name]: the method, or [undefined]. *)
Definition method (name : string) : option string :=
  if existsb (String.eqb name) methods then Some name else None.

Inductive JsError :=
| TypeError (message : string).

(** [f.bind(this)]: reading a property of [undefined] throws. *)
Definition bind (name : string) (f : option string) : JsError + string :=
  match f with
  | Some m => inr m
  | None => inl (TypeError "Cannot read properties of undefined (reading 'bind')")
  end.

Inductive Outcome :=
| Returned (w : World)
| Thrown (e : JsError) (w : World).

(** [characteristic.onSet(this.m.bind(this))] or [.onGet(...)], then the
    rest of the constructor. *)
Definition register (characteristic kind m : string) (k : World -> Outcome)
           (w : World) : Outcome :=
  match bind m (method m) with
  | inl e => Thrown e w
  | inr f => k (set_handlers (handlers (hub w) ++ [(characteristic, kind, f)])%list w)
  end.

(** The object after the field initialisers and the first statement of
    the constructor, [this.restoreState = device.restore_state ?? false]. *)
Definition fresh (d : DeviceContext) (cached : ContextState) (h : Hub)
           (url_ok : bool) : World :=
  mkWorld
    (mkFields None None None None false None
              (match restore_state d with Some b => b | None => false end)
              (mkState false 100 300))
    d cached h
    (mkRuntime [] [] 0 0 [] url_ok).

(** The constructor up to the registration of the handlers; the hub is
    taken to store what [setCharacteristic] hands it, and
    [device.exampleDisplayName] is a field no context has. *)
Definition initial (d : DeviceContext) (cached : ContextState) (h : Hub)
           (url_ok : bool) : World :=
  set_Name None (loadCachedState (fresh d cached h url_ok)).

(** The last two statements of the constructor. *)
Definition start (w : World) : World :=
  updateNotResponding (connectWebSocket w).

(** [constructor(platform, accessory)]. *)
Definition constructor (d : DeviceContext) (cached : ContextState) (h : Hub)
           (url_ok : bool) : Outcome :=
  register "On" "onSet" "setOn"
    (register "On" "onGet" "getOn"
      (register "Brightness" "onSet" "setBrightness"
        (register "Brightness" "onGet" "getBrightness"
          (fun w =>
             register "ColorTemperature" "onSet" "setColorTemperature"
               (register "ColorTemperature" "onGet" "getColorTemperature"
                  (fun w => Returned (start w)))
               (set_ColorTemperature_props (Some (143, 455)%Z) w)))))
    (initial d cached h url_ok).

(* --------------------------------------------------------------- *)
(** *** The event loop *)

(** What can happen to one accessory.  Socket events carry the index of
    the WebSocket that emits them. *)
Inductive Event :=
| Start                                   (* the constructor reaches [connectWebSocket()] *)
| Elapse (dt : Z)
| Fire (id : nat)                         (* a pending timer comes due *)
| Open (i : nat)
| Message (i : nat) (data : Frame)
| Close (i : nat)
| Error (i : nat)
| HubSetOn (value : bool)
| HubSetBrightness (value : number)
| HubSetColorTemperature (value : number)
| Destroy.

Definition run_callback (cb : Callback) (w : World) : World :=
  match cb with
  | ReconnectCb => connectWebSocket w
  | StatusCheckCb => checkStatus w
  | ConnectionTimeoutCb => on_connection_timeout w
  end.

(** A timer that fires: a timeout is spent, an interval is due again one
    period later. *)
Definition rearm (id : nat) (p : Z) (w : World) : World :=
  set_timers
    (map (fun t => if Nat.eqb (timer_id t) id
                   then mkTimer id (callback t) (now (rt w) + p) (Some p) else t)
         (timers (rt w))) w.

Definition fire (id : nat) (w : World) : World :=
  match pending id w with
  | Some t =>
      if (due t <=? now (rt w))%Z then
        let w :=
          match every t with
          | Some p => rearm id p w
          | None => clearTimer id w
          end in
        run_callback (callback t) w
      else w
  | None => w
  end.

(** One turn of the event loop.  The library moves the socket to its new
    [readyState] before the listener runs; an event that cannot occur in
    the current state (a timer that is not due, [open] on a socket that
    is not connecting, anything on a closed socket) changes nothing. *)
Definition step (e : Event) (w : World) : World :=
  match e with
  | Start => start w
  | Elapse dt => if (0 <=? dt)%Z then set_now (now (rt w) + dt) w else w
  | Fire id => fire id w
  | Open i =>
      match readyState i w with
      | Some CONNECTING => on_open (set_readyState i OPEN w)
      | _ => w
      end
  | Message i data =>
      match readyState i w with
      | Some OPEN | Some CLOSING => on_message data w
      | _ => w
      end
  | Close i =>
      match readyState i w with
      | Some CLOSED | None => w
      | Some _ => on_close (set_readyState i CLOSED w)
      end
  | Error i =>
      match readyState i w with
      | Some CLOSED | None => w
      | Some _ => on_error (set_readyState i CLOSING w)
      end
  | HubSetOn v => setOn v w
  | HubSetBrightness v => setBrightness v w
  | HubSetColorTemperature v => setColorTemperature v w
  | Destroy => destroy w
  end.

Fixpoint run (events : list Event) (w : World) : World :=
  match events with
  | [] => w
  | e :: rest => run rest (step e w)
  end.

(* --------------------------------------------------------------- *)
(** *** Reading the state *)

(** The connection states of the specification.  The link is Online when
    the accessory holds it to be ([isOnline]) and its socket is open;
    [sendState] and [sendMessage] test exactly these two. *)
Definition socket_open (w : World) : bool :=
  match ws (this w) with
  | Some i =>
      match readyState i w with
      | Some OPEN => true
      | _ => false
      end
  | None => false
  end.

Definition Online (w : World) : bool := isOnline (this w) && socket_open w.

(** The pending timers that run a given callback. *)
Definition pending_of (cb : Callback) (w : World) : list Timer :=
  filter (fun t => Callback_eqb (callback t) cb) (timers (rt w)).

(** The frames sent by a step. *)
Definition sent_since (before after : World) : list (nat * string) :=
  skipn (List.length (sent (rt before))) (sent (rt after)).


End Accessory.

(* ================================================================= *)
(** ** The platform: [validateConfig] and [discoverDevices] *)

Module Platform.

Open Scope string_scope.






Section Discover.

(** [this.api.hap.uuid.generate]. *)
Variable generate : string -> string.





End Discover.


End Platform.

(* ================================================================= *)
(** ** Timers and sockets: what every reachable state satisfies *)

Module Invariant.

Import JS ColorModel Accessory.

(** The field that keeps the handle of the timers running [cb]. *)
Definition handle_of (cb : Callback) (w : World) : option nat :=
  match cb with
  | ReconnectCb => reconnectInterval (this w)
  | StatusCheckCb => statusCheckInterval (this w)
  | ConnectionTimeoutCb => connectionTimeout (this w)
  end.

Definition set_handle (cb : Callback) (v : option nat) : World -> World :=
  match cb with
  | ReconnectCb => set_reconnectInterval v
  | StatusCheckCb => set_statusCheckInterval v
  | ConnectionTimeoutCb => set_connectionTimeout v
  end.

(** Handles are fresh and distinct, every pending timer is the one its
    field refers to, and a socket still connecting is the current one. *)
Record Inv (w : World) : Prop := mkInv {
  inv_fresh : forall t, In t (timers (rt w)) -> (timer_id t < next_timer (rt w))%nat;
  inv_nodup : NoDup (map timer_id (timers (rt w)));
  inv_owner : forall t, In t (timers (rt w)) -> handle_of (callback t) w = Some (timer_id t);
  inv_handles : forall cb id, handle_of cb w = Some id -> (id < next_timer (rt w))%nat;
  inv_connecting : forall i, readyState i w = Some CONNECTING -> ws (this w) = Some i
}.

(** The part of the world the invariant reads. *)
Definition core (w : World) :=
  (timers (rt w), next_timer (rt w), sockets (rt w),
   (ws (this w), reconnectInterval (this w), statusCheckInterval (this w),
    connectionTimeout (this w))).

Lemma Inv_core w w' : core w = core w' -> Inv w -> Inv w'.
Proof.
  unfold core. intros E [F N O Hd C].
  injection E as Et En Es Ew Er Est Ect.
  split.
  - intros t. rewrite <- Et, <- En. apply F.
  - rewrite <- Et. exact N.
  - intros t Ht. rewrite <- Et in Ht. specialize (O t Ht).
    destruct (callback t); simpl in *; congruence.
  - intros cb id Hc. rewrite <- En. apply (Hd cb).
    destruct cb; simpl in *; congruence.
  - intros i Hi. unfold readyState in *. rewrite <- Es in Hi. rewrite <- Ew. auto.
Qed.

(** Dropping timers keeps the remaining handles distinct. *)
Lemma distinct_ids_filter (keep : Timer -> bool) (ts : list Timer) :
  NoDup (map timer_id ts) -> NoDup (map timer_id (filter keep ts)).
Proof.
  intros Hts. induction ts as [|t ts IH]; simpl in *; [exact Hts|].
  apply NoDup_cons_iff in Hts as [Hfresh Hrest].
  destruct (keep t); simpl; [|exact (IH Hrest)].
  apply NoDup_cons; [|exact (IH Hrest)].
  intros Hin. apply Hfresh.
  apply in_map_iff in Hin as [t' [Eid Ht']].
  apply filter_In in Ht' as [Ht' _].
  apply in_map_iff. exists t'. split; assumption.
Qed.

Lemma Callback_eqb_eq a b : Callback_eqb a b = true <-> a = b.
Proof. destruct a, b; simpl; split; intros H; congruence. Qed.

(** Clearing a timer. *)
Lemma Inv_clearTimer id w : Inv w -> Inv (clearTimer id w).
Proof.
  intros [F N O Hd C]. split; simpl.
  - intros t Ht. apply filter_In in Ht as [Ht _]. auto.
  - apply distinct_ids_filter. exact N.
  - intros t Ht. apply filter_In in Ht as [Ht _].
    specialize (O t Ht). destruct (callback t); exact O.
  - intros cb i Hc. apply (Hd cb). destruct cb; exact Hc.
  - exact C.
Qed.

(** Clearing the timer a field refers to and resetting the field. *)
Lemma Inv_clear_reset cb id w :
  Inv w -> handle_of cb w = Some id -> Inv (set_handle cb None (clearTimer id w)).
Proof.
  intros [F N O Hd C] Hh. split.
  - destruct cb; simpl; intros t Ht; apply filter_In in Ht as [Ht _]; auto.
  - destruct cb; simpl; apply distinct_ids_filter; exact N.
  - intros t Ht.
    assert (Hin : In t (timers (rt w)) /\ Nat.eqb (timer_id t) id = false).
    { destruct cb; simpl in Ht; apply filter_In in Ht as [Ht Hne];
        apply negb_true_iff in Hne; auto. }
    destruct Hin as [Hin Hne]. specialize (O t Hin).
    apply Nat.eqb_neq in Hne.
    destruct cb, (callback t) eqn:E; simpl in *; try exact O; congruence.
  - intros cb' i Hc.
    assert (Hn : next_timer (rt (set_handle cb None (clearTimer id w))) = next_timer (rt w))
      by (destruct cb; reflexivity).
    rewrite Hn. apply (Hd cb'). destruct cb, cb'; simpl in *; congruence.
  - destruct cb; exact C.
Qed.

(** No pending timer runs [cb]. *)
Definition none_pending (cb : Callback) (w : World) : Prop :=
  forall t, In t (timers (rt w)) -> callback t <> cb.

Lemma none_pending_unset cb w : Inv w -> handle_of cb w = None -> none_pending cb w.
Proof.
  intros [_ _ O _ _] Hh t Ht E. specialize (O t Ht). rewrite E in O. congruence.
Qed.

Lemma none_pending_cleared cb id w :
  Inv w -> handle_of cb w = Some id -> none_pending cb (clearTimer id w).
Proof.
  intros [_ _ O _ _] Hh t Ht E. simpl in Ht. apply filter_In in Ht as [Ht Hne].
  specialize (O t Ht). rewrite E, Hh in O. injection O as O.
  rewrite O, Nat.eqb_refl in Hne. discriminate.
Qed.

(** Arming a timer and storing its handle in the field of its callback. *)
Lemma Inv_arm cb delay period w :
  Inv w -> none_pending cb w ->
  Inv (set_handle cb (Some (fst (arm cb delay period w))) (snd (arm cb delay period w))).
Proof.
  intros [F N O Hd C] Hn.
  assert (Hnext : next_timer (rt (set_handle cb (Some (fst (arm cb delay period w)))
                                    (snd (arm cb delay period w)))) = S (next_timer (rt w)))
    by (destruct cb; reflexivity).
  split.
  - intros t Ht.
    assert (Hin : In t (timers (rt w) ++ [mkTimer (next_timer (rt w)) cb (now (rt w) + delay) period])
                  /\ next_timer (rt (set_handle cb (Some (fst (arm cb delay period w)))
                                       (snd (arm cb delay period w)))) = S (next_timer (rt w))).
    { destruct cb; simpl in *; auto. }
    destruct Hin as [Hin ->]. apply in_app_or in Hin as [Hin | [<- | []]].
    + specialize (F t Hin). lia.
    + simpl. lia.
  - assert (E : map timer_id (timers (rt (set_handle cb (Some (fst (arm cb delay period w)))
                                            (snd (arm cb delay period w)))))
                = (map timer_id (timers (rt w)) ++ [next_timer (rt w)])%list).
    { destruct cb; simpl; rewrite map_app; reflexivity. }
    rewrite E. apply NoDup_app.
    + exact N.
    + constructor; [intros []|constructor].
    + intros x Hx [<- | []]. apply in_map_iff in Hx as [t [Ex Ht]].
      specialize (F t Ht). lia.
  - intros t Ht.
    assert (Hin : In t (timers (rt w) ++ [mkTimer (next_timer (rt w)) cb (now (rt w) + delay) period])%list).
    { destruct cb; simpl in *; auto. }
    apply in_app_or in Hin as [Hin | [<- | []]].
    + specialize (O t Hin). specialize (Hn t Hin).
      destruct cb, (callback t); simpl in *; try exact O; congruence.
    + destruct cb; reflexivity.
  - intros cb' i Hc. rewrite Hnext.
    destruct cb, cb'; simpl in *;
      try (injection Hc as <-; lia);
      match goal with
      | H : ?f (this w) = Some i |- _ =>
          first [ pose proof (Hd ReconnectCb i H) | pose proof (Hd StatusCheckCb i H)
                | pose proof (Hd ConnectionTimeoutCb i H) ]; lia
      end.
  - destruct cb; exact C.
Qed.

(** Sockets. *)
Lemma nth_error_update_nth {A} (l : list A) i j x :
  nth_error (update_nth i x l) j =
  if Nat.eqb j i then (if Nat.ltb i (List.length l) then Some x else None)
  else nth_error l j.
Proof.
  revert i j. induction l as [|a l IH]; intros i j; simpl.
  - destruct (Nat.eqb j i); destruct j; destruct i; reflexivity.
  - destruct i, j; simpl; try reflexivity.
    rewrite IH. reflexivity.
Qed.

Lemma readyState_set_readyState i j s w :
  readyState j (set_readyState i s w) =
  if Nat.eqb j i then (if Nat.ltb i (List.length (sockets (rt w))) then Some s else None)
  else readyState j w.
Proof. unfold readyState. simpl. apply nth_error_update_nth. Qed.

Lemma Inv_set_readyState i s w :
  s <> CONNECTING -> Inv w -> Inv (set_readyState i s w).
Proof.
  intros Hs [F N O Hd C]. split; try assumption.
  intros j Hj. rewrite readyState_set_readyState in Hj.
  destruct (Nat.eqb j i).
  - destruct (Nat.ltb i _); congruence.
  - apply C in Hj. exact Hj.
Qed.

Lemma Inv_ws_close i w : Inv w -> Inv (ws_close i w).
Proof.
  intros H. unfold ws_close.
  destruct (readyState i w) as [[]|]; try assumption;
    apply Inv_set_readyState; congruence.
Qed.

Lemma Inv_ws_terminate i w : Inv w -> Inv (ws_terminate i w).
Proof.
  intros H. unfold ws_terminate.
  destruct (readyState i w) as [[]|]; try assumption;
    apply Inv_set_readyState; congruence.
Qed.

Lemma ws_close_not_connecting i w : readyState i (ws_close i w) <> Some CONNECTING.
Proof.
  unfold ws_close. destruct (readyState i w) as [[]|] eqn:E;
    try (rewrite E; congruence);
    rewrite readyState_set_readyState, Nat.eqb_refl;
    destruct (Nat.ltb i _); congruence.
Qed.

(** The methods. *)
Lemma Inv_scheduleReconnect w : Inv w -> Inv (scheduleReconnect w).
Proof.
  intros H. unfold scheduleReconnect.
  destruct (reconnectInterval (this w)) eqn:E; [exact H|].
  apply (@Inv_arm ReconnectCb RECONNECT_INTERVAL (Some RECONNECT_INTERVAL) w H).
  apply none_pending_unset; assumption.
Qed.

Lemma Inv_scheduleConnectionTimeout w : Inv w -> Inv (scheduleConnectionTimeout w).
Proof.
  intros H. unfold scheduleConnectionTimeout.
  destruct (connectionTimeout (this w)) as [id|] eqn:E.
  - apply (@Inv_arm ConnectionTimeoutCb CONNECTION_TIMEOUT None).
    + apply (@Inv_clear_reset ConnectionTimeoutCb id w H E).
    + intros t Ht. apply (@none_pending_cleared ConnectionTimeoutCb id w H E t Ht).
  - apply (@Inv_arm ConnectionTimeoutCb CONNECTION_TIMEOUT None w H).
    apply none_pending_unset; assumption.
Qed.

Lemma Inv_handleDisconnection w : Inv w -> Inv (handleDisconnection w).
Proof.
  intros H. unfold handleDisconnection.
  apply Inv_scheduleReconnect.
  apply (@Inv_core (match statusCheckInterval (this (set_isOnline false w)) with
                    | Some id => set_statusCheckInterval None (clearInterval id (set_isOnline false w))
                    | None => set_isOnline false w
                    end)); [reflexivity|].
  assert (H1 : Inv (set_isOnline false w)) by (apply (@Inv_core w); [reflexivity|exact H]).
  destruct (statusCheckInterval (this (set_isOnline false w))) as [id|] eqn:E; [|exact H1].
  apply (@Inv_clear_reset StatusCheckCb id _ H1 E).
Qed.

Lemma Inv_connectWebSocket w : Inv w -> Inv (connectWebSocket w).
Proof.
  intros H. unfold connectWebSocket.
  set (w1 := match ws (this w) with Some i => ws_close i w | None => w end).
  assert (H1 : Inv w1) by (subst w1; destruct (ws (this w)); [apply Inv_ws_close|]; exact H).
  assert (Hc : forall j, readyState j w1 <> Some CONNECTING).
  { intros j Hj. pose proof (inv_connecting _ H1 _ Hj) as Hw.
    subst w1. destruct (ws (this w)) as [i|] eqn:E.
    - assert (ws (this (ws_close i w)) = ws (this w)) as Hk.
      { unfold ws_close. destruct (readyState i w) as [[]|]; reflexivity. }
      rewrite Hk, E in Hw. injection Hw as <-. exact (ws_close_not_connecting _ _ Hj).
    - congruence. }
  destruct (url_accepted (rt w1)); [|apply Inv_handleDisconnection; exact H1].
  destruct H1 as [F N O Hd C]. split; try assumption.
  intros j Hj. unfold readyState in Hj. simpl in Hj.
  destruct (Nat.lt_ge_cases j (List.length (sockets (rt w1)))) as [Hlt|Hge].
  - rewrite nth_error_app1 in Hj by exact Hlt. exfalso. exact (Hc j Hj).
  - rewrite nth_error_app2 in Hj by exact Hge.
    destruct (j - List.length (sockets (rt w1)))%nat as [|k] eqn:Ek.
    + simpl. f_equal. lia.
    + destruct k; discriminate.
Qed.

Lemma core_set_char_On v w : core (set_char_On v w) = core w.
Proof. reflexivity. Qed.

Lemma core_sendMessage m w : core (sendMessage m w) = core w.
Proof.
  unfold sendMessage. destruct (ws (this w)); [|reflexivity].
  destruct (readyState _ w) as [[]|]; reflexivity.
Qed.

Lemma core_sendState w : core (sendState w) = core w.
Proof.
  unfold sendState. destruct (negb _); [reflexivity|apply core_sendMessage].
Qed.

Lemma core_updateAccessoryInfo status w w' :
  updateAccessoryInfo status w = Some w' -> core w' = core w.
Proof.
  unfold updateAccessoryInfo.
  destruct (toString_of _); [|discriminate].
  intros E. injection E as <-.
  repeat match goal with
         | |- context [if ?b then _ else _] => destruct b
         end; reflexivity.
Qed.

Lemma Inv_on_open w : Inv w -> Inv (on_open w).
Proof.
  intros H. unfold on_open.
  set (w1 := match reconnectInterval (this w) with
             | Some id => set_reconnectInterval None (clearInterval id w)
             | None => w
             end).
  assert (H1 : Inv w1).
  { subst w1. destruct (reconnectInterval (this w)) as [id|] eqn:E; [|exact H].
    apply (@Inv_clear_reset ReconnectCb id w H E). }
  set (w2 := match statusCheckInterval (this w1) with
             | Some id => clearInterval id w1
             | None => w1
             end).
  assert (H2 : Inv w2 /\ none_pending StatusCheckCb w2).
  { subst w2. destruct (statusCheckInterval (this w1)) as [id|] eqn:E.
    - split; [apply Inv_clearTimer; exact H1|].
      apply (@none_pending_cleared StatusCheckCb id w1 H1 E).
    - split; [exact H1|]. apply none_pending_unset; assumption. }
  destruct H2 as [H2 Hn].
  pose proof (@Inv_arm StatusCheckCb STATUS_CHECK_INTERVAL (Some STATUS_CHECK_INTERVAL) w2 H2 Hn) as H3.
  apply Inv_scheduleConnectionTimeout.
  eapply Inv_core; [|exact H3].
  symmetry. unfold setInterval. cbv zeta.
  rewrite core_set_char_On.
  match goal with |- context [if ?b then _ else _] => destruct b end;
    [rewrite core_sendState|]; reflexivity.
Qed.

Lemma Inv_on_message data w : Inv w -> Inv (on_message data w).
Proof.
  intros H. unfold on_message.
  destruct (JSON_parse data) as [response|]; [|exact H].
  destruct (is_status_response response) as [[]|]; [| |exact H].
  - destruct (updateAccessoryInfo response w) as [w'|] eqn:E; [|exact H].
    apply Inv_scheduleConnectionTimeout.
    apply core_updateAccessoryInfo in E.
    apply (@Inv_core w); [|exact H].
    rewrite <- E. destruct (negb (isOnline (this w'))); reflexivity.
  - apply Inv_scheduleConnectionTimeout. exact H.
Qed.

Lemma Inv_on_connection_timeout w : Inv w -> Inv (on_connection_timeout w).
Proof.
  intros H. unfold on_connection_timeout. apply Inv_handleDisconnection.
  destruct (ws (this w)); [apply Inv_ws_terminate|]; exact H.
Qed.

Lemma core_setOn v w : core (setOn v w) = core w.
Proof.
  unfold setOn. cbv zeta.
  match goal with |- context [if ?b then _ else _] => destruct b end; [|reflexivity].
  match goal with |- core (set_char_On _ (sendState ?x)) = _ =>
    change (core (sendState x) = core w); rewrite core_sendState end.
  reflexivity.
Qed.

Lemma core_setBrightness v w : core (setBrightness v w) = core w.
Proof.
  unfold setBrightness. cbv zeta.
  match goal with |- context [if ?b then _ else _] => destruct b end; [|reflexivity].
  rewrite core_sendState. reflexivity.
Qed.

Lemma core_setColorTemperature v w : core (setColorTemperature v w) = core w.
Proof.
  unfold setColorTemperature. cbv zeta.
  match goal with |- context [if ?b then _ else _] => destruct b end; [|reflexivity].
  rewrite core_sendState. reflexivity.
Qed.

Lemma Inv_destroy w : Inv w -> Inv (destroy w).
Proof.
  intros H. unfold destroy.
  set (w1 := match ws (this w) with Some i => ws_close i w | None => w end).
  assert (H1 : Inv w1) by (subst w1; destruct (ws (this w)); [apply Inv_ws_close|]; exact H).
  set (w2 := match reconnectInterval (this w1) with Some id => clearTimeout id w1 | None => w1 end).
  assert (H2 : Inv w2).
  { subst w2. destruct (reconnectInterval (this w1)); [apply Inv_clearTimer|]; exact H1. }
  destruct (statusCheckInterval (this w2)); [apply Inv_clearTimer|]; exact H2.
Qed.

Lemma Inv_rearm id p w : Inv w -> Inv (rearm id p w).
Proof.
  intros [F N O Hd C].
  assert (Eid : map timer_id
                  (map (fun t => if Nat.eqb (timer_id t) id
                                 then mkTimer id (callback t) (now (rt w) + p) (Some p) else t)
                       (timers (rt w))) = map timer_id (timers (rt w))).
  { rewrite map_map. apply map_ext_in. intros t _.
    destruct (Nat.eqb (timer_id t) id) eqn:E; [|reflexivity].
    apply Nat.eqb_eq in E. simpl. auto. }
  split; simpl.
  - intros t Ht. apply in_map_iff in Ht as [t0 [<- Ht0]].
    specialize (F t0 Ht0).
    destruct (Nat.eqb (timer_id t0) id) eqn:E; [|exact F].
    apply Nat.eqb_eq in E. simpl. lia.
  - rewrite Eid. exact N.
  - intros t Ht. apply in_map_iff in Ht as [t0 [<- Ht0]].
    specialize (O t0 Ht0).
    destruct (Nat.eqb (timer_id t0) id) eqn:E.
    + apply Nat.eqb_eq in E. simpl. rewrite <- E.
      destruct (callback t0); exact O.
    + destruct (callback t0); exact O.
  - intros cb i Hc. apply (Hd cb). destruct cb; exact Hc.
  - exact C.
Qed.

Lemma Inv_run_callback cb w : Inv w -> Inv (run_callback cb w).
Proof.
  intros H. destruct cb; simpl.
  - apply Inv_connectWebSocket; exact H.
  - apply (@Inv_core w); [|exact H]. symmetry. apply core_sendMessage.
  - apply Inv_on_connection_timeout; exact H.
Qed.

Lemma Inv_fire id w : Inv w -> Inv (fire id w).
Proof.
  intros H. unfold fire.
  destruct (pending id w) as [t|]; [|exact H].
  destruct (due t <=? now (rt w))%Z; [|exact H].
  apply Inv_run_callback.
  destruct (every t); [apply Inv_rearm|apply Inv_clearTimer]; exact H.
Qed.

Lemma Inv_start w : Inv w -> Inv (start w).
Proof.
  intros H. unfold start.
  apply (@Inv_core (connectWebSocket w)); [reflexivity|].
  apply Inv_connectWebSocket; exact H.
Qed.

Lemma Inv_step e w : Inv w -> Inv (step e w).
Proof.
  intros H. destruct e; simpl.
  - apply Inv_start; exact H.
  - destruct (0 <=? dt)%Z; [|exact H]. apply (@Inv_core w); [reflexivity|exact H].
  - apply Inv_fire; exact H.
  - destruct (readyState i w) as [[]|]; try exact H.
    apply Inv_on_open. apply Inv_set_readyState; [congruence|exact H].
  - destruct (readyState i w) as [[]|]; try exact H; apply Inv_on_message; exact H.
  - destruct (readyState i w) as [[]|]; try exact H;
      apply Inv_handleDisconnection; apply Inv_set_readyState; (congruence || exact H).
  - destruct (readyState i w) as [[]|]; try exact H;
      apply Inv_handleDisconnection; apply Inv_set_readyState; (congruence || exact H).
  - apply (@Inv_core w); [symmetry; apply core_setOn|exact H].
  - apply (@Inv_core w); [symmetry; apply core_setBrightness|exact H].
  - apply (@Inv_core w); [symmetry; apply core_setColorTemperature|exact H].
  - apply Inv_destroy; exact H.
Qed.

Lemma Inv_run events w : Inv w -> Inv (run events w).
Proof.
  revert w. induction events as [|e events IH]; intros w H; simpl; [exact H|].
  apply IH. apply Inv_step. exact H.
Qed.

Lemma Inv_initial d cached h url_ok : Inv (initial d cached h url_ok).
Proof.
  apply (@Inv_core (fresh d cached h url_ok)).
  - unfold initial, loadCachedState. destruct cached; reflexivity.
  - split; simpl.
    + intros t [].
    + constructor.
    + intros t [].
    + intros cb i Hc. destruct cb; discriminate.
    + intros i Hi. unfold readyState in Hi. simpl in Hi. destruct i; discriminate.
Qed.

End Invariant.

(* ================================================================= *)
(** ** Set requests, the open listener and the message listener *)

Module Requests.

Import JS ColorModel Accessory Invariant.

(** What a set request that leaves the DesiredState at [s'] must do:
    hold [s'], have it in the accessory context, send the one frame that
    encodes [s'] when the link is Online, and otherwise touch neither
    sockets, timers nor the frames sent, nor any other field. *)
Definition set_request_ok (w w' : World) (s' : AccessoryState) : Prop :=
  states (this w') = s'
  /\ persisted w' = Some s'
  /\ (Online w = true ->
      exists i, ws (this w) = Some i
                /\ sent (rt w') = (sent (rt w) ++ [(i, calculateHexValue s')])%list)
  /\ (Online w = false ->
      rt w' = rt w
      /\ this w' = mkFields (ws (this w)) (reconnectInterval (this w))
                            (connectionTimeout (this w)) (statusCheckInterval (this w))
                            (isOnline (this w)) (lastStatus (this w))
                            (restoreState (this w)) s').

Lemma sendState_online w :
  Online w = true ->
  exists i, ws (this w) = Some i
            /\ sendState w = ws_send i (calculateHexValue (states (this w))) w.
Proof.
  unfold Online, socket_open, sendState, sendMessage. intros H.
  apply andb_true_iff in H as [Hon Hs]. rewrite Hon. simpl.
  destruct (ws (this w)) as [i|]; [|discriminate].
  exists i. split; [reflexivity|].
  destruct (readyState i w) as [[]|]; try discriminate. reflexivity.
Qed.

Lemma sendState_offline w : Online w = false -> sendState w = w.
Proof.
  unfold Online, socket_open, sendState, sendMessage. intros H.
  destruct (isOnline (this w)); simpl in *; [|reflexivity].
  destruct (ws (this w)) as [i|]; [|reflexivity].
  destruct (readyState i w) as [[]|]; try reflexivity. discriminate.
Qed.

Lemma Online_frame w w' :
  isOnline (this w') = isOnline (this w) -> ws (this w') = ws (this w) ->
  sockets (rt w') = sockets (rt w) -> Online w' = Online w.
Proof.
  unfold Online, socket_open, readyState. intros -> -> ->. reflexivity.
Qed.

Lemma setBrightness_ok v w :
  set_request_ok w (setBrightness v w)
    (mkState (On (states (this w))) v (ColorTemperature (states (this w)))).
Proof.
  unfold setBrightness. cbv zeta.
  set (s' := mkState _ v _). set (w1 := saveState (set_states s' w)).
  assert (E1 : Online w1 = Online w) by (apply Online_frame; reflexivity).
  change (isOnline (this w1)) with (isOnline (this w)).
  unfold set_request_ok.
  destruct (Online w) eqn:Eo.
  - destruct (sendState_online w1 E1) as [i [Hi Hs]].
    assert (Hon : isOnline (this w) = true).
    { unfold Online in Eo. apply andb_true_iff in Eo. tauto. }
    rewrite Hon, Hs.
    split; [reflexivity|]. split; [reflexivity|]. split; [|discriminate].
    intros _. exists i. split; [exact Hi|reflexivity].
  - rewrite (sendState_offline w1 E1).
    destruct (isOnline (this w)) eqn:Hon; subst w1;
      (split; [reflexivity|]); (split; [reflexivity|]); (split; [discriminate|]);
      intros _; split; simpl; rewrite ?Hon; reflexivity.
Qed.

Lemma setColorTemperature_ok v w :
  set_request_ok w (setColorTemperature v w)
    (mkState (On (states (this w))) (Brightness (states (this w))) v).
Proof.
  unfold setColorTemperature. cbv zeta.
  set (s' := mkState _ _ v). set (w1 := saveState (set_states s' w)).
  assert (E1 : Online w1 = Online w) by (apply Online_frame; reflexivity).
  change (isOnline (this w1)) with (isOnline (this w)).
  unfold set_request_ok.
  destruct (Online w) eqn:Eo.
  - destruct (sendState_online w1 E1) as [i [Hi Hs]].
    assert (Hon : isOnline (this w) = true).
    { unfold Online in Eo. apply andb_true_iff in Eo. tauto. }
    rewrite Hon, Hs.
    split; [reflexivity|]. split; [reflexivity|]. split; [|discriminate].
    intros _. exists i. split; [exact Hi|reflexivity].
  - rewrite (sendState_offline w1 E1).
    destruct (isOnline (this w)) eqn:Hon; subst w1;
      (split; [reflexivity|]); (split; [reflexivity|]); (split; [discriminate|]);
      intros _; split; simpl; rewrite ?Hon; reflexivity.
Qed.

Lemma setOn_ok v w :
  set_request_ok w (setOn v w)
    (mkState v (Brightness (states (this w))) (ColorTemperature (states (this w)))).
Proof.
  unfold setOn. cbv zeta.
  set (s' := mkState v _ _). set (w1 := saveState (set_states s' w)).
  assert (E1 : Online w1 = Online w) by (apply Online_frame; reflexivity).
  change (isOnline (this w1)) with (isOnline (this w)).
  unfold set_request_ok.
  destruct (Online w) eqn:Eo.
  - destruct (sendState_online w1 E1) as [i [Hi Hs]].
    assert (Hon : isOnline (this w) = true).
    { unfold Online in Eo. apply andb_true_iff in Eo. tauto. }
    rewrite Hon, Hs.
    split; [reflexivity|]. split; [reflexivity|]. split; [|discriminate].
    intros _. exists i. split; [exact Hi|reflexivity].
  - rewrite (sendState_offline w1 E1).
    destruct (isOnline (this w)) eqn:Hon; subst w1;
      (split; [reflexivity|]); (split; [reflexivity|]); (split; [discriminate|]);
      intros _; split; simpl; rewrite ?Hon; reflexivity.
Qed.






















End Requests.

(* ================================================================= *)
(** ** The connection life cycle *)

Module Connection.

Import JS ColorModel Accessory Invariant Requests.

(** A device as the README configures it, and the hub before the
    accessory has written anything. *)
Definition lamp : DeviceContext :=
  mkDevice "CCT Downlighter 1" "cct_downlighter" "192.168.1.100" (Some true).

Definition hub0 : Hub := mkHub None None None None None (OnIs false) [] None.

Definition booted : World := initial lamp CtxUndefined hub0 true.

Lemma filter_none {A} (p : A -> bool) (l : list A) :
  (forall x, In x l -> p x = false) -> filter p l = [].
Proof.
  induction l as [|a l IH]; intros H; simpl; [reflexivity|].
  rewrite (H a (or_introl eq_refl)). apply IH. intros x Hx. apply H. right. exact Hx.
Qed.

Lemma none_pending_nil cb w : none_pending cb w -> pending_of cb w = [].
Proof.
  intros H. unfold pending_of. apply filter_none. intros t Ht.
  destruct (Callback_eqb (callback t) cb) eqn:E; [|reflexivity].
  apply Callback_eqb_eq in E. exfalso. exact (H t Ht E).
Qed.

Lemma filter_same_key_le_1 {A} (key : A -> nat) (p : A -> bool) (l : list A) (k : nat) :
  NoDup (map key l) ->
  (forall x, In x l -> p x = true -> key x = k) ->
  (List.length (filter p l) <= 1)%nat.
Proof.
  induction l as [|a l IH]; intros Hn Hk; simpl; [lia|].
  inversion Hn as [|? ? Hna Hnl]; subst.
  destruct (p a) eqn:Ea.
  - assert (E : filter p l = []).
    { apply filter_none. intros x Hx. destruct (p x) eqn:Ex; [|reflexivity].
      exfalso. apply Hna. apply in_map_iff. exists x. split; [|exact Hx].
      rewrite (Hk x (or_intror Hx) Ex). symmetry. apply Hk; [left; reflexivity|exact Ea]. }
    rewrite E. simpl. lia.
  - apply IH; [exact Hnl|]. intros x Hx. apply Hk. right. exact Hx.
Qed.

Lemma pending_at_most_one cb w : Inv w -> (List.length (pending_of cb w) <= 1)%nat.
Proof.
  intros [F N O Hd C]. unfold pending_of.
  destruct (handle_of cb w) as [id|] eqn:E.
  - apply (@filter_same_key_le_1 _ timer_id _ _ id N).
    intros t Ht Hp. apply Callback_eqb_eq in Hp.
    specialize (O t Ht). rewrite Hp, E in O. congruence.
  - rewrite filter_none; [simpl; lia|].
    intros t Ht. destruct (Callback_eqb (callback t) cb) eqn:Hp; [|reflexivity].
    apply Callback_eqb_eq in Hp. specialize (O t Ht). rewrite Hp, E in O. discriminate.
Qed.

Lemma suppressed_while_pending w :
  Inv w -> pending_of ReconnectCb w <> [] -> scheduleReconnect w = w.
Proof.
  intros H Hp. unfold scheduleReconnect.
  destruct (reconnectInterval (this w)) eqn:E; [reflexivity|].
  exfalso. apply Hp. apply none_pending_nil.
  apply none_pending_unset; assumption.
Qed.

Lemma pending_of_app cb (l1 l2 : list Timer) :
  filter (fun t => Callback_eqb (callback t) cb) (l1 ++ l2)
  = (filter (fun t => Callback_eqb (callback t) cb) l1
     ++ filter (fun t => Callback_eqb (callback t) cb) l2)%list.
Proof. apply filter_app. Qed.

Lemma rearm_connection_timeout w :
  Inv w ->
  pending_of ConnectionTimeoutCb (scheduleConnectionTimeout w)
  = [mkTimer (next_timer (rt w)) ConnectionTimeoutCb (now (rt w) + CONNECTION_TIMEOUT) None].
Proof.
  intros H. unfold scheduleConnectionTimeout.
  destruct (connectionTimeout (this w)) as [id|] eqn:E.
  - pose proof (@none_pending_cleared ConnectionTimeoutCb id w H E) as Hn.
    apply none_pending_nil in Hn. unfold pending_of in *. simpl in *.
    rewrite pending_of_app, Hn. reflexivity.
  - pose proof (@none_pending_unset ConnectionTimeoutCb w H E) as Hn.
    apply none_pending_nil in Hn. unfold pending_of in *. simpl in *.
    rewrite pending_of_app, Hn. reflexivity.
Qed.

Lemma filter_filter_comm {A} (p q : A -> bool) (l : list A) :
  filter p (filter q l) = filter q (filter p l).
Proof.
  induction l as [|a l IH]; simpl; [reflexivity|].
  destruct (p a) eqn:Ep, (q a) eqn:Eq; simpl; rewrite ?Ep, ?Eq, IH; reflexivity.
Qed.

Lemma rearm_status_check w :
  Inv w ->
  pending_of StatusCheckCb (on_open w)
  = [mkTimer (next_timer (rt w)) StatusCheckCb (now (rt w) + STATUS_CHECK_INTERVAL)
             (Some STATUS_CHECK_INTERVAL)].
Proof.
  intros H. unfold on_open.
  set (w1 := match reconnectInterval (this w) with
             | Some id => set_reconnectInterval None (clearInterval id w)
             | None => w
             end).
  assert (H1 : Inv w1).
  { subst w1. destruct (reconnectInterval (this w)) as [id|] eqn:E; [|exact H].
    apply (@Inv_clear_reset ReconnectCb id w H E). }
  assert (E1 : next_timer (rt w1) = next_timer (rt w) /\ now (rt w1) = now (rt w)).
  { subst w1. destruct (reconnectInterval (this w)); split; reflexivity. }
  set (w2 := match statusCheckInterval (this w1) with
             | Some id => clearInterval id w1
             | None => w1
             end).
  assert (H2 : Inv w2 /\ none_pending StatusCheckCb w2).
  { subst w2. destruct (statusCheckInterval (this w1)) as [id|] eqn:E.
    - split; [apply Inv_clearTimer; exact H1|].
      apply (@none_pending_cleared StatusCheckCb id w1 H1 E).
    - split; [exact H1|]. apply none_pending_unset; assumption. }
  assert (E2 : next_timer (rt w2) = next_timer (rt w) /\ now (rt w2) = now (rt w)).
  { subst w2. destruct (statusCheckInterval (this w1)); exact E1. }
  destruct H2 as [H2 Hn]. destruct E2 as [En Et].
  apply none_pending_nil in Hn. unfold pending_of in Hn.
  unfold setInterval, arm. cbv zeta.
  match goal with |- context [if ?b then _ else _] => set (r := b) end.
  unfold scheduleConnectionTimeout, pending_of.
  assert (Hc : connectionTimeout (this w2) = connectionTimeout (this w)).
  { subst w2 w1. destruct (reconnectInterval (this w)); simpl;
      destruct (statusCheckInterval (this w)); reflexivity. }
  assert (Hlt : forall c, connectionTimeout (this w) = Some c -> (c < next_timer (rt w2))%nat).
  { intros c Ec. rewrite En. exact (inv_handles _ H ConnectionTimeoutCb _ Ec). }
  assert (Es : forall x, timers (rt (if r then sendState x else x)) = timers (rt x)
                         /\ connectionTimeout (this (if r then sendState x else x))
                            = connectionTimeout (this x)
                         /\ next_timer (rt (if r then sendState x else x)) = next_timer (rt x)
                         /\ now (rt (if r then sendState x else x)) = now (rt x)).
  { intros x. destruct r; [|repeat split].
    pose proof (core_sendState x) as Ec. unfold core in Ec.
    injection Ec as -> -> _ _ _ _ ->. repeat split.
    unfold sendState, sendMessage. destruct (negb _); [reflexivity|].
    destruct (ws (this x)); [|reflexivity].
    destruct (readyState _ x) as [[]|]; reflexivity. }
  match goal with
  | |- context [if r then sendState ?x else ?x] =>
      destruct (Es x) as [Est [Esc [Esn Esw]]];
      set (y := if r then sendState x else x) in *
  end.
  simpl in Est, Esc.
  change (connectionTimeout (this (set_char_On (OnIs (On (states (this y)))) y)))
    with (connectionTimeout (this y)).
  rewrite Esc, Hc.
  destruct (connectionTimeout (this w)) as [c|] eqn:Ec; simpl; rewrite Est.
  - rewrite pending_of_app. simpl. rewrite app_nil_r.
    rewrite filter_filter_comm, pending_of_app, Hn. simpl.
    specialize (Hlt c eq_refl).
    assert (Hne : Nat.eqb (next_timer (rt w2)) c = false) by (apply Nat.eqb_neq; lia).
    rewrite Hne. simpl. rewrite En, Et. reflexivity.
  - rewrite !pending_of_app, Hn. simpl. rewrite En, Et. reflexivity.
Qed.

(** C8: whatever events have occurred since construction, at most one
    timer of each kind (reconnect, status poll, activity timeout) is
    pending; a reconnect request made while a reconnect timer is pending
    changes nothing; and re-arming the status-poll timer (the open
    listener) or the activity timeout leaves exactly one instance
    pending, the fresh one, the prior instance having been cancelled. *)
Theorem at_most_one_timer_of_each_kind :
  forall d cached h url_ok events,
    let w := run events (initial d cached h url_ok) in
    (forall cb, (List.length (pending_of cb w) <= 1)%nat)
    /\ (pending_of ReconnectCb w <> [] -> scheduleReconnect w = w)
    /\ pending_of StatusCheckCb (on_open w)
       = [mkTimer (next_timer (rt w)) StatusCheckCb (now (rt w) + STATUS_CHECK_INTERVAL)
                  (Some STATUS_CHECK_INTERVAL)]
    /\ pending_of ConnectionTimeoutCb (scheduleConnectionTimeout w)
       = [mkTimer (next_timer (rt w)) ConnectionTimeoutCb (now (rt w) + CONNECTION_TIMEOUT)
                  None].
Proof.
  intros d cached h url_ok events w.
  assert (H : Inv w) by (apply Inv_run, Inv_initial).
  split; [intros cb; apply pending_at_most_one; exact H|].
  split; [apply suppressed_while_pending; exact H|].
  split; [apply rearm_status_check; exact H|apply rearm_connection_timeout; exact H].
Qed.














(** C2: each of [setOn], [setBrightness] and [setColorTemperature], for
    every value and in every state, leaves the DesiredState with the new
    field, stores it in the accessory context, and sends a frame (the
    encoding of the new DesiredState, on the current socket) exactly when
    the link is Online; when it is not, nothing is sent and no socket,
    timer or other field changes, so nothing is queued: a request that
    was not transmitted leaves no trace once the next one overwrites it. *)
Theorem set_requests_persist_and_send_iff_online :
  forall w (on : bool) (brightness mireds : number),
    let s := states (this w) in
    set_request_ok w (setOn on w) (mkState on (Brightness s) (ColorTemperature s))
    /\ set_request_ok w (setBrightness brightness w)
                         (mkState (On s) brightness (ColorTemperature s))
    /\ set_request_ok w (setColorTemperature mireds w)
                         (mkState (On s) (Brightness s) mireds)
    /\ (Online w = false ->
        forall on' brightness' mireds',
          setOn on' (setOn on w) = setOn on' w
          /\ setBrightness brightness' (setBrightness brightness w) = setBrightness brightness' w
          /\ setColorTemperature mireds' (setColorTemperature mireds w)
             = setColorTemperature mireds' w).
Proof.
  intros w on brightness mireds s.
  split; [apply setOn_ok|]. split; [apply setBrightness_ok|].
  split; [apply setColorTemperature_ok|].
  intros Hoff on' brightness' mireds'.
  unfold setOn, setBrightness, setColorTemperature. cbv zeta. simpl.
  assert (E : forall x, isOnline (this x) = isOnline (this w) -> ws (this x) = ws (this w) ->
                        sockets (rt x) = sockets (rt w) -> sendState x = x).
  { intros x E1 E2 E3. apply sendState_offline. rewrite <- Hoff. apply Online_frame; assumption. }
  destruct (isOnline (this w)) eqn:Hon; simpl; rewrite ?Hon; simpl;
    rewrite ?E by (simpl; rewrite ?E; simpl; auto); simpl;
    rewrite ?Hon; simpl; rewrite ?E by (simpl; auto); repeat split; reflexivity.
Qed.











(** C3, on the code: a frame that is not JSON (or that parses to a
    primitive) leaves the world as it was, so the activity timeout keeps
    its old deadline instead of being re-armed for a full window, whereas
    a JSON object without the status fields does re-arm it.  In the run
    below the socket opens at 0 ms, a frame arrives at 29000 ms, and at
    30000 ms the timeout fires and takes the link offline. *)
Theorem non_json_frame_does_not_rearm_timeout :
  (forall w i text, step (Message i (NotJson text)) w = w)
  /\ (forall w i text, step (Message i (Json (JStr text))) w = w)
  /\ let w := run [Start; Open 0; Elapse 29000] booted in
     Online w = true
     /\ pending_of ConnectionTimeoutCb w = [mkTimer 1 ConnectionTimeoutCb 30000 None]
     /\ pending_of ConnectionTimeoutCb (step (Message 0 (NotJson "pong")) w)
        = [mkTimer 1 ConnectionTimeoutCb 30000 None]
     /\ pending_of ConnectionTimeoutCb (step (Message 0 (Json (JObj []))) w)
        = [mkTimer 2 ConnectionTimeoutCb (29000 + CONNECTION_TIMEOUT) None]
     /\ Online (run [Message 0 (NotJson "pong"); Elapse 1000; Fire 1] w) = false
     /\ Online (run [Message 0 (Json (JObj [])); Elapse 1000; Fire 1] w) = true.
Proof.
  split; [|split].
  - intros w i text. simpl. destruct (readyState i w) as [[]|]; reflexivity.
  - intros w i text. simpl. destruct (readyState i w) as [[]|]; reflexivity.
  - vm_compute. repeat split.
Qed.

(** [destroy()]: what holds of it in general. *)
Lemma filter_idem {A} (p : A -> bool) (l : list A) : filter p (filter p l) = filter p l.
Proof.
  induction l as [|a l IH]; simpl; [reflexivity|].
  destruct (p a) eqn:E; simpl; rewrite ?E, IH; reflexivity.
Qed.

Lemma update_nth_idem {A} i (x : A) l : update_nth i x (update_nth i x l) = update_nth i x l.
Proof.
  revert i. induction l as [|a l IH]; intros [|i]; simpl; try reflexivity.
  rewrite IH. reflexivity.
Qed.

Lemma ws_close_idem i w : ws_close i (ws_close i w) = ws_close i w.
Proof.
  unfold ws_close.
  destruct (readyState i w) as [[]|] eqn:E; rewrite ?E; try reflexivity;
    rewrite readyState_set_readyState, Nat.eqb_refl;
    destruct (Nat.ltb i _); reflexivity.
Qed.

Lemma destroy_unfold w :
  destroy w =
  let w1 := match ws (this w) with Some i => ws_close i w | None => w end in
  set_timers
    (filter (fun t => match statusCheckInterval (this w) with
                      | Some c => negb (Nat.eqb (timer_id t) c)
                      | None => true
                      end)
       (filter (fun t => match reconnectInterval (this w) with
                         | Some r => negb (Nat.eqb (timer_id t) r)
                         | None => true
                         end)
          (timers (rt w)))) w1.
Proof.
  unfold destroy. cbv zeta.
  assert (Ht : forall l : list Timer, filter (fun _ => true) l = l).
  { induction l as [|a l IH]; simpl; [reflexivity|]. rewrite IH. reflexivity. }
  destruct w as [[wsf r c s o l rs st] dev cs hb [sk tm nt nw sn ua]].
  unfold ws_close, readyState, clearTimeout, clearInterval, clearTimer. simpl.
  destruct wsf as [i|]; simpl;
    [destruct (nth_error sk i) as [[]|]; simpl|];
    destruct r as [r|]; simpl; destruct s as [s|]; simpl; rewrite ?Ht; reflexivity.
Qed.

Lemma this_ws_close i w : this (ws_close i w) = this w.
Proof. unfold ws_close. destruct (readyState i w) as [[]|]; reflexivity. Qed.

Lemma timers_ws_close i w : timers (rt (ws_close i w)) = timers (rt w).
Proof. unfold ws_close. destruct (readyState i w) as [[]|]; reflexivity. Qed.

Lemma ws_close_set_timers i l w : ws_close i (set_timers l w) = set_timers l (ws_close i w).
Proof.
  unfold ws_close.
  change (readyState i (set_timers l w)) with (readyState i w).
  destruct (readyState i w) as [[]|]; reflexivity.
Qed.

Lemma destroy_idem w : destroy (destroy w) = destroy w.
Proof.
  rewrite (destroy_unfold (destroy w)). rewrite !destroy_unfold. cbv zeta.
  set (S := fun t => match statusCheckInterval (this w) with
                     | Some c => negb (Nat.eqb (timer_id t) c)
                     | None => true
                     end).
  set (R := fun t => match reconnectInterval (this w) with
                     | Some r => negb (Nat.eqb (timer_id t) r)
                     | None => true
                     end).
  set (F := fun l : list Timer => filter S (filter R l)).
  assert (HF : forall l, F (F l) = F l).
  { intros l. unfold F.
    rewrite (filter_filter_comm R S (filter R l)), !filter_idem. reflexivity. }
  set (w1 := match ws (this w) with Some i => ws_close i w | None => w end).
  assert (Hthis : this w1 = this w).
  { subst w1. destruct (ws (this w)); [apply this_ws_close|reflexivity]. }
  assert (Htm : timers (rt w1) = timers (rt w)).
  { subst w1. destruct (ws (this w)); [apply timers_ws_close|reflexivity]. }
  assert (Hthis' : forall l, this (set_timers l w1) = this w) by (intros l; exact Hthis).
  assert (Htm' : forall l, timers (rt (set_timers l w1)) = l) by reflexivity.
  rewrite !Hthis', Htm'. fold S R.
  change (filter S (filter R (filter S (filter R (timers (rt w))))))
    with (F (F (timers (rt w)))).
  rewrite HF. unfold F.
  destruct (ws (this w)) as [i|] eqn:E; subst w1.
  - rewrite ws_close_set_timers, ws_close_idem. reflexivity.
  - reflexivity.
Qed.

Lemma destroy_cancels cb w :
  Inv w -> cb <> ConnectionTimeoutCb -> pending_of cb (destroy w) = [].
Proof.
  intros H Hcb. rewrite destroy_unfold. cbv zeta. unfold pending_of. simpl.
  apply filter_none. intros t Ht.
  apply filter_In in Ht as [Ht Hs]. apply filter_In in Ht as [Ht Hr].
  destruct (Callback_eqb (callback t) cb) eqn:E; [|reflexivity].
  apply Callback_eqb_eq in E. pose proof (inv_owner _ H t Ht) as Ho. rewrite E in Ho.
  destruct cb; simpl in Ho; try congruence.
  - rewrite Ho, Nat.eqb_refl in Hr. discriminate.
  - rewrite Ho, Nat.eqb_refl in Hs. discriminate.
Qed.

Lemma destroy_closes w : socket_open (destroy w) = false.
Proof.
  rewrite destroy_unfold. cbv zeta. unfold socket_open.
  destruct (ws (this w)) as [i|] eqn:E.
  - assert (Hw : ws (this (ws_close i w)) = Some i).
    { unfold ws_close. destruct (readyState i w) as [[]|]; exact E. }
    simpl. rewrite Hw.
    change (readyState i (set_timers _ (ws_close i w))) with (readyState i (ws_close i w)).
    unfold ws_close. destruct (readyState i w) as [[]|] eqn:Er; rewrite ?Er; try reflexivity;
      rewrite readyState_set_readyState, Nat.eqb_refl;
      destruct (Nat.ltb i _); reflexivity.
  - simpl. rewrite E. reflexivity.
Qed.

(** C4, on the code: in every reachable state [destroy()] returns (it is
    a total function: there is nothing in it that can throw, whether or
    not a socket or a timer exists), cancels the reconnect timer and the
    status-poll timer, leaves the socket not open, and a second call
    changes nothing more; before any connection it changes nothing at
    all.  It does not touch [connectionTimeout]: destroyed while Online,
    the accessory still has its activity timeout pending, and the close
    event of its own socket then arms a new reconnect timer. *)
Theorem destroy_leaves_activity_timeout_pending :
  (forall d cached h url_ok events,
      let w := run events (initial d cached h url_ok) in
      pending_of ReconnectCb (destroy w) = []
      /\ pending_of StatusCheckCb (destroy w) = []
      /\ socket_open (destroy w) = false
      /\ destroy (destroy w) = destroy w)
  /\ destroy booted = booted
  /\ let w := run [Start; Open 0] booted in
     Online w = true
     /\ pending_of ConnectionTimeoutCb (destroy w)
        = [mkTimer 1 ConnectionTimeoutCb CONNECTION_TIMEOUT None]
     /\ pending_of ReconnectCb (run [Destroy; Close 0] w)
        = [mkTimer 2 ReconnectCb RECONNECT_INTERVAL (Some RECONNECT_INTERVAL)].
Proof.
  split; [|split].
  - intros d cached h url_ok events w.
    assert (H : Inv w) by (apply Inv_run, Inv_initial).
    split; [apply destroy_cancels; [exact H|discriminate]|].
    split; [apply destroy_cancels; [exact H|discriminate]|].
    split; [apply destroy_closes|apply destroy_idem].
  - reflexivity.
  - vm_compute. repeat split.
Qed.

End Connection.

(* ================================================================= *)
(** ** Construction and discovery *)

Module Construction.

Import Accessory.

(** C9: for every device context, cached state and hub, the constructor
    throws a [TypeError] while it evaluates [this.getOn.bind(this)]:
    [getOn] is not a method of the class.  At that point only the [onSet]
    handler of On is registered, no socket has been created and no timer
    armed, so no connection was attempted. *)
Theorem constructor_throws_before_connecting :
  forall d cached h url_ok,
    method "getOn" = None
    /\ exists message w,
         constructor d cached h url_ok = Thrown (TypeError message) w
         /\ handlers (hub w) = (handlers h ++ [("On", "onSet", "setOn")])%list
         /\ ws (this w) = None
         /\ sockets (rt w) = []
         /\ timers (rt w) = [].
Proof.
  intros d cached h url_ok. split; [reflexivity|].
  unfold constructor.
  assert (E1 : bind "setOn" (method "setOn") = inr "setOn"%string) by reflexivity.
  assert (E2 : exists m, bind "getOn" (method "getOn") = inl (TypeError m))
    by (eexists; reflexivity).
  destruct E2 as [m E2].
  unfold register at 1. rewrite E1.
  unfold register at 1. rewrite E2.
  exists m. eexists. split; [reflexivity|].
  unfold initial, loadCachedState. destruct cached; repeat split; reflexivity.
Qed.

End Construction.

Module Discovery.

Import Platform.










End Discovery.
